(** * NutriTrack AI (app.py): the calculators and the meal log

    A shallow embedding of the button handlers of [app.py]:
    - tab 1, "Analyze Image"            (lines 118-138),
    - tab 2, "Calculate BMI"            (lines 148-162),
    - tab 3, "Calculate Daily Calories" (lines 180-192),
    - tab 4, "Calculate Water Intake"   (lines 207-215).

    Numbers.  Python's [float] is IEEE 754 binary64 and is embedded as the
    primitive type [float]: [+], [-], [*], [/] and the comparisons are the
    correctly rounded binary64 operations, a float literal denotes the
    nearest binary64 value, and infinities, signed zeros and NaN are there.
    Python's [int] is [Z]; an int that meets a float is converted first
    ([float_of_int]), which raises [OverflowError] when the int is out of
    range, and [/] raises [ZeroDivisionError] on a zero divisor.  The one
    operation binary64 does not pin down is [**]: CPython hands it to the C
    library's [pow], whose last bit differs between libraries, so
    [height_bmi ** 2] is a parameter of the BMI handler.

    Effects.  A handler runs in the monad [M]: it reads and writes the
    Streamlit session state, renders widgets (an output trace, in call
    order), and may raise a Python exception. *)

From Stdlib Require Import ZArith Floats.
From stdpp Require Import gmap strings list.

Set Warnings "-inexact-float".
Open Scope float_scope.

(** ** Python values and exceptions *)

(** Truth value of a [str]: the empty string is falsy. *)
Definition truthy (s : string) : bool :=
  match s with
  | EmptyString => false
  | String _ _ => true
  end.

(** [a or b] on strings. *)
Definition py_or (a b : string) : string := if truthy a then a else b.

(** The exceptions that can travel through the handlers. [KeyError] is what a
    [dict] subscript raises on an absent key and [IndexError] what a [list]
    subscript raises out of range (both are subclasses of Python's
    [LookupError]); [OverflowError] and [ZeroDivisionError] come from float
    arithmetic; [ExternalError] stands for anything raised inside the
    generative-AI client, with its cause. *)
Inductive exn : Type :=
| KeyError (key : string)
| IndexError
| OverflowError
| ZeroDivisionError
| ExternalError (cause : string).

Definition is_LookupError (e : exn) : bool :=
  match e with
  | KeyError _ | IndexError => true
  | OverflowError | ZeroDivisionError | ExternalError _ => false
  end.

Inductive result (A : Type) : Type :=
| Ok (a : A)
| Raise (e : exn).
Arguments Ok {A} a.
Arguments Raise {A} e.

#[global] Instance result_ret : MRet result := fun A (a : A) => Ok a.

#[global] Instance result_bind : MBind result :=
  fun A B (k : A -> result B) (r : result A) =>
    match r with
    | Ok a => k a
    | Raise e => Raise e
    end.

(** [d[k]] on a [dict] with string keys. *)
Definition subscript {V : Type} (d : gmap string V) (k : string) : result V :=
  match d !! k with
  | Some v => Ok v
  | None => Raise (KeyError k)
  end.

(** The ints from this bound on (in absolute value) round to an infinity:
    it is the midpoint between the largest float and [2 ^ 1024]. *)
Definition float_int_limit : Z := 2 ^ 1024 - 2 ^ 970.

(** The conversion of an [int] operand in mixed arithmetic: the nearest
    float, ties to even, or [OverflowError] ("int too large to convert to
    float"). *)
Definition nearest_float (z : Z) : float :=
  SF2Prim (binary_normalize prec emax z 0 false).

Definition float_of_int (z : Z) : result float :=
  if (Z.abs z <? float_int_limit)%Z then Ok (nearest_float z)
  else Raise OverflowError.

(** [a / b] on floats. *)
Definition float_div (a b : float) : result float :=
  if b =? 0 then Raise ZeroDivisionError else Ok (a / b).

(** ** Rendered output *)

(** The text handed to a widget: a literal, an f-string with one number
    formatted [:.2f] (the number is kept as computed; rounding to two
    decimals happens in the display only), or an f-string interpolating a
    caught exception. *)
Inductive text : Type :=
| Lit (s : string)
| Fixed2 (pre : string) (x : float) (post : string)
| Caught (pre : string) (e : exn).

Inductive ui_event : Type :=
| st_error (t : text)
| st_success (t : text)
| st_info (t : text)
| st_warning (t : text)
| st_subheader (t : text)
| st_write (s : string).

(** ** Session state *)

(** One entry of [st.session_state["meal_logs"]]: the dict
    [{"meal_name": ..., "response": ...}] of lines 132-135. *)
Record meal_record : Type := MealRecord {
  meal_name : string;
  response : string
}.

(** [st.session_state], restricted to the entries holding meal logs (the only
    ones the handlers read or write). *)
Abbreviation session_state := (gmap string (list meal_record)).

(** ** The handler monad: session state, output trace, exceptions *)

Record world : Type := World {
  session : session_state;
  rendered : list ui_event
}.

Definition M (A : Type) : Type := world -> result A * world.

#[global] Instance M_ret : MRet M := fun A (a : A) w => (Ok a, w).

#[global] Instance M_bind : MBind M := fun A B (k : A -> M B) (m : M A) w =>
  match m w with
  | (Ok a, w') => k a w'
  | (Raise e, w') => (Raise e, w')
  end.

(** Lift a pure computation that may raise: the exception surfaces with the
    session state and the page as they are. *)
Definition lift {A : Type} (r : result A) : M A := fun w => (r, w).

(** [try: body except Exception as e: handler e]. Effects of [body] up to the
    exception are kept. *)
Definition try_except {A : Type} (body : M A) (handler : exn -> M A) : M A :=
  fun w =>
    match body w with
    | (Ok a, w') => (Ok a, w')
    | (Raise e, w') => handler e w'
    end.

Definition render (e : ui_event) : M unit :=
  fun w => (Ok tt, World (session w) (rendered w ++ [e])).

Definition get_session : M session_state := fun w => (Ok (session w), w).

Definition set_item (k : string) (v : list meal_record) : M unit :=
  fun w => (Ok tt, World (<[k := v]> (session w)) (rendered w)).

(** Run a handler on a session state with an empty page. *)
Definition exec {A : Type} (m : M A) (st : session_state) : result A * world :=
  m (World st []).

(** ** Tab 2: BMI calculator (lines 148-162) *)

Inductive category : Type := Underweight | Normal | Overweight | Obese.

(** The branch taken by the [if]/[elif]/[else] chain of lines 153-160. The
    int [25] is compared as the float [25.0], which it equals exactly. *)
Definition classify (bmi : float) : category :=
  if bmi <? 18.5 then Underweight
  else if (18.5 <=? bmi) && (bmi <? 24.9) then Normal
  else if (25 <=? bmi) && (bmi <? 29.9) then Overweight
  else Obese.

(** The widget rendered in each branch (lines 154, 156, 158, 160). *)
Definition advice (c : category) : ui_event :=
  match c with
  | Underweight =>
      st_info (Lit "Underweight: Aim for a balanced diet and regular meals.")
  | Normal =>
      st_success (Lit "Normal weight: Great job maintaining your health!")
  | Overweight =>
      st_warning (Lit "Overweight: Consider regular exercise and dietary adjustments.")
  | Obese =>
      st_error (Lit "Obesity: Consult a healthcare professional for guidance.")
  end.

Section Power.

(** [x ** 2] on a float [x]: CPython's [float.__pow__], that is the C
    library's [pow(x, 2.0)], with [OverflowError] when [pow] reports a range
    error. *)
Variable pow_2 : float -> result float.

(** Line 150: [weight_bmi / (height_bmi ** 2)]. *)
Definition bmi_of (weight_bmi height_bmi : float) : result float :=
  square ← pow_2 height_bmi ;
  float_div weight_bmi square.

Definition bmi_button (weight_bmi height_bmi : float) : M unit :=
  if 0 <? height_bmi then
    bmi ← lift (bmi_of weight_bmi height_bmi) ;
    render (st_subheader (Fixed2 "Your BMI: " bmi "")) ;;
    render (advice (classify bmi))
  else
    render (st_error (Lit "Height must be greater than zero.")).

End Power.

(** ** Tab 3: daily calorie requirement (lines 180-192) *)

Definition Sedentary : string := "Sedentary (little or no exercise)".
Definition Lightly_active : string :=
  "Lightly active (light exercise/sports 1-3 days/week)".
Definition Moderately_active : string :=
  "Moderately active (moderate exercise/sports 3-5 days/week)".
Definition Very_active : string :=
  "Very active (hard exercise/sports 6-7 days/week)".

(** Lines 183-188. *)
Definition activity_multipliers : gmap string float :=
  {[ Sedentary := 1.2;
     Lightly_active := 1.375;
     Moderately_active := 1.55;
     Very_active := 1.725 ]}.

(** Line 182, evaluated left to right. [age] is an [int] (the number input
    has integer bounds), so [5 * age] is an exact int product, converted when
    it is subtracted from a float; the int literals [10], [100], [5] and
    [-161] convert exactly. *)
Definition bmr_of (age : Z) (weight_calorie height_calorie : float)
    (gender : string) : result float :=
  five_age ← float_of_int (5 * age) ;
  mret (10 * weight_calorie + 6.25 * (height_calorie * 100) - five_age
        + (if String.eqb gender "Male" then 5 else -161)).

Definition calorie_req_button (age : Z) (weight_calorie height_calorie : float)
    (gender activity_level : string) : M unit :=
  if (0 <? age)%Z && (0 <? weight_calorie) && (0 <? height_calorie) then
    bmr ← lift (bmr_of age weight_calorie height_calorie gender) ;
    m ← lift (subscript activity_multipliers activity_level) ;
    let calorie_needs := bmr * m in
    render (st_success
              (Fixed2 "Your daily calorie requirement: " calorie_needs " kcal"))
  else
    render (st_error (Lit "Please provide valid inputs.")).

(** ** Tab 4: water intake (lines 207-215) *)

(** Lines 208-213; the values are Python [int]s. *)
Definition activity_multiplier : gmap string Z :=
  {[ Sedentary := 30%Z;
     Lightly_active := 35%Z;
     Moderately_active := 40%Z;
     Very_active := 45%Z ]}.

(** Line 214: [weight_water * activity_multiplier[...] / 1000], that is
    [(weight * float(multiplier)) / 1000.0]. *)
Definition water_button (weight_water : float) (activity_level_water : string)
    : M unit :=
  m ← lift (subscript activity_multiplier activity_level_water) ;
  multiplier ← lift (float_of_int m) ;
  water_needs ← lift (float_div (weight_water * multiplier) 1000) ;
  render (st_success
            (Fixed2 "You should drink approximately " water_needs
                    " liters of water daily.")).

(** ** Tab 1: meal analysis and the meal log (lines 14-28, 94-138) *)

(** The uploaded file: [uploaded_file.type] and [uploaded_file.getvalue()]. *)
Record uploaded_file : Type := UploadedFile {
  file_type : string;
  file_value : list Byte.byte
}.

(** The dict [{"mime_type": ..., "data": ...}] of lines 23-26. *)
Record image_part : Type := ImagePart {
  mime_type : string;
  data : list Byte.byte
}.

(** Lines 20-28. *)
Definition input_image_setup (f : uploaded_file) : list image_part :=
  [ImagePart (file_type f) (file_value f)].

Definition newline : string := String (Ascii.ascii_of_nat 10) EmptyString.

(** Lines 94-107. *)
Definition input_prompt : string :=
  "
    You are an expert Nutritionist and Food Image Analyst. Analyze the food items present in the uploaded image and perform the following tasks:
    1. Identify each distinct food item present in the image.
    2. For each identified food item, provide:
       - Name of the food item.
       - Estimated quantity or portion size (e.g., grams, slices, etc.).
       - Estimated calorie count based on the portion size.
    3. Summarize the results in a well-structured table with the following columns:
       - Food Item
       - Portion Size
       - Calorie Count
    4. At the end, calculate and display the **total calorie count** of all the identified food items.
    Ensure accuracy and clarity in your results.
    ".

(** Line 124: the f-string [f"{input_prompt}\n\nAdditional Input: {input_text}"]
    when [input_text] is non-empty, the bare prompt otherwise. *)
Definition full_prompt_of (input_text : string) : string :=
  if truthy input_text
  then input_prompt +:+ newline +:+ newline
       +:+ "Additional Input: " +:+ input_text
  else input_prompt.

Section Analysis.

(** [model.generate_content([prompt, part])] followed by [.text]: the
    external vision model, which answers with text or raises. *)
Variable generate_content : string -> image_part -> result string.

(** Lines 14-17. [image[0]] raises [IndexError] on an empty list. *)
Definition get_gemini_response (image : list image_part) (prompt : string)
    : result string :=
  match image with
  | part :: _ => generate_content prompt part
  | [] => Raise IndexError
  end.

(** Lines 130-135: create the log on first use, then append in place. *)
Definition log_meal (input_text answer : string) : M unit :=
  st ← get_session ;
  (if decide ("meal_logs" ∈ dom st) then mret tt
   else set_item "meal_logs" []) ;;
  st' ← get_session ;
  logs ← lift (subscript st' "meal_logs") ;
  set_item "meal_logs"
    (logs ++ [MealRecord (py_or input_text "Unnamed Meal") answer]).

(** Lines 118-138. *)
Definition calorie_button (uploaded : option uploaded_file)
    (input_text : string) : M unit :=
  match uploaded with
  | None => render (st_error (Lit "Please upload an image to analyze."))
  | Some file =>
      try_except
        (let image_data := input_image_setup file in
         let full_prompt := full_prompt_of input_text in
         answer ← lift (get_gemini_response image_data full_prompt) ;
         render (st_success (Lit "Analysis Complete!")) ;;
         render (st_write answer) ;;
         log_meal input_text answer)
        (fun e => render (st_error (Caught "Error: " e)))
  end.

End Analysis.

(** Modelled from the spec: [MealLogStore.readAll] (the "Meal History" tab is
    declared on line 85 but has no code in [app.py]). It produces the records
    in insertion order, and the empty sequence initially. *)
Definition readAll (st : session_state) : list meal_record :=
  default [] (st !! "meal_logs").


(** ** The specification's tables, for comparison with the code *)

(** The closed enumerations of the specification and their UI labels. *)
Inductive spec_activity : Type :=
| SedentaryLevel | LightlyActive | ModeratelyActive | VeryActive.

Inductive spec_sex : Type := Male | Female.

Definition label_of (a : spec_activity) : string :=
  match a with
  | SedentaryLevel => Sedentary
  | LightlyActive => Lightly_active
  | ModeratelyActive => Moderately_active
  | VeryActive => Very_active
  end.

Definition sex_label (s : spec_sex) : string :=
  match s with
  | Male => "Male"
  | Female => "Female"
  end.

(** Specification, 4.1: Sedentary 1.2, Lightly active 1.375, Moderately
    active 1.55, Very active 1.725. *)
Definition spec_calorie_multiplier (a : spec_activity) : float :=
  match a with
  | SedentaryLevel => 1.2
  | LightlyActive => 1.375
  | ModeratelyActive => 1.55
  | VeryActive => 1.725
  end.

(** Specification, 4.1: millilitres per kilogram per day. *)
Definition spec_water_multiplier (a : spec_activity) : float :=
  match a with
  | SedentaryLevel => 30
  | LightlyActive => 35
  | ModeratelyActive => 40
  | VeryActive => 45
  end.

(** Specification, 4.1: the Mifflin-St Jeor rate with the height in
    centimetres, times the activity multiplier, read in binary64. *)
Definition spec_daily_calories (ageYears : Z) (weightKg heightM : float)
    (sex : spec_sex) (a : spec_activity) : float :=
  (10 * weightKg + 6.25 * (heightM * 100) - nearest_float (5 * ageYears)
   + match sex with Male => 5 | Female => -161 end)
  * spec_calorie_multiplier a.

(** Specification, 4.1: [weightKg × multiplier / 1000], read in binary64. *)
Definition spec_water_liters (weightKg : float) (a : spec_activity) : float :=
  weightKg * spec_water_multiplier a / 1000.

(** A label is one of the four the select boxes offer. *)
Definition known_label (l : string) : Prop :=
  l = Sedentary \/ l = Lightly_active \/ l = Moderately_active
  \/ l = Very_active.

(** The gap between the literals [24.9] and [25] of lines 155 and 157. *)
Definition in_gap (bmi : float) : Prop :=
  (24.9 <=? bmi) = true /\ (bmi <? 25) = true.

(** A reference [x ** 2] for the examples: the correctly rounded square,
    with [OverflowError] when the square of a finite float is infinite. A C
    library's [pow] may differ from it in the last bit, not in where it
    overflows or underflows. *)
Definition square_pow (x : float) : result float :=
  let square := x * x in
  if is_infinity square && negb (is_infinity x) then Raise OverflowError
  else Ok square.

(** The image part built from an upload, as [input_image_setup] packs it. *)
Definition part_of (f : uploaded_file) : image_part :=
  ImagePart (file_type f) (file_value f).

(** The record logged for an analysis: [input_text or "Unnamed Meal"]. *)
Definition record_of (input_text answer : string) : meal_record :=
  MealRecord (if decide (input_text = "") then "Unnamed Meal" else input_text)
             answer.

(** ** Notions used by the further properties *)

(** The page of the calorie handler (line 190) and of the water handler
    (line 215) around the number they display. *)
Definition calorie_page (kcal : float) : list ui_event :=
  [st_success (Fixed2 "Your daily calorie requirement: " kcal " kcal")].

Definition water_page (liters : float) : list ui_event :=
  [st_success
     (Fixed2 "You should drink approximately " liters
             " liters of water daily.")].

(** The categories in the order of the branches of lines 153-160. *)
Definition rank (c : category) : nat :=
  match c with
  | Underweight => 0
  | Normal => 1
  | Overweight => 2
  | Obese => 3
  end.

(** The integer entries of the water table (lines 209-212). *)
Definition ml_per_kg (a : spec_activity) : Z :=
  match a with
  | SedentaryLevel => 30
  | LightlyActive => 35
  | ModeratelyActive => 40
  | VeryActive => 45
  end.

(** One press of "Analyze Image": the file in the uploader (if any), the
    text in the text area, and the vision model as it answers this request. *)
Record press : Type := Press {
  upload : option uploaded_file;
  typed : string;
  service : string -> image_part -> result string
}.

(** The session state after a series of presses. Streamlit reruns the script
    on every press: the page starts empty each time, the session state is
    carried over. *)
Fixpoint session_after (presses : list press) (st : session_state)
    : session_state :=
  match presses with
  | [] => st
  | p :: rest =>
      session_after rest
        (session (exec (calorie_button (service p) (upload p) (typed p)) st).2)
  end.

(** The records a press is expected to add to the log: one when a file is
    there and the model answers, none otherwise. *)
Definition logged_by (p : press) : list meal_record :=
  match upload p with
  | None => []
  | Some f =>
      match service p (full_prompt_of (typed p)) (part_of f) with
      | Ok answer => [record_of (typed p) answer]
      | Raise _ => []
      end
  end.

(** ** Comparisons of floats

    The comparisons are read through their specification on [spec_float]:
    [fcmp x y] is [None] when [x] or [y] is NaN and the ordering of the two
    values otherwise. *)

Definition fcmp (x y : float) : option comparison :=
  SFcompare (Prim2SF x) (Prim2SF y).

Definition is_lt (k : option comparison) : bool :=
  match k with Some Lt => true | _ => false end.
Definition is_le (k : option comparison) : bool :=
  match k with Some (Lt | Eq) => true | _ => false end.
Definition is_eq (k : option comparison) : bool :=
  match k with Some Eq => true | _ => false end.
Definition is_ge (k : option comparison) : bool :=
  match k with Some (Gt | Eq) => true | _ => false end.
Definition is_gt (k : option comparison) : bool :=
  match k with Some Gt => true | _ => false end.

(** How the position of a value against a constant [c1] constrains its
    position against a larger constant [c2]. *)
Definition below_then_below (k1 k2 : option comparison) : Prop :=
  match k1, k2 with
  | None, None => True
  | Some (Lt | Eq), Some Lt => True
  | Some Gt, Some _ => True
  | _, _ => False
  end.

(** How the position of a value against a constant constrains the position
    of a larger value against the same constant. *)
Definition smaller_then_lower (k1 k2 : option comparison) : Prop :=
  match k1, k2 with
  | Some Lt, Some _ => True
  | Some Eq, Some (Eq | Gt) => True
  | Some Gt, Some Gt => True
  | _, _ => False
  end.

(** * Properties *)

(** ** Comparisons of floats: order facts *)

Ltac fold_pos_compare :=
  repeat match goal with
  | |- context [Pos.compare_cont Eq ?p ?q] =>
      change (Pos.compare_cont Eq p q) with (Pos.compare p q)
  | H : context [Pos.compare_cont Eq ?p ?q] |- _ =>
      change (Pos.compare_cont Eq p q) with (Pos.compare p q) in H
  end.

Lemma SFcompare_flip (a b : spec_float) :
  SFcompare b a = option_map CompOpp (SFcompare a b).
Proof.
  destruct a as [sa | sa | | sa ma ea], b as [sb | sb | | sb mb eb];
    try destruct sa; try destruct sb; simpl; try reflexivity;
    fold_pos_compare;
    rewrite (Z.compare_antisym ea eb);
    destruct (ea ?= eb)%Z; simpl; try reflexivity;
    rewrite (Pos.compare_antisym ma mb);
    destruct (ma ?= mb)%positive; reflexivity.
Qed.

Lemma SFcompare_trans (a b c : spec_float) (x y : comparison) :
  SFcompare a b = Some x -> SFcompare b c = Some y ->
  x <> Gt -> y <> Gt ->
  SFcompare a c = Some (match x with Eq => y | _ => x end).
Proof.
  destruct a as [sa | sa | | sa ma ea], b as [sb | sb | | sb mb eb],
    c as [sc | sc | | sc mc ec];
    try destruct sa; try destruct sb; try destruct sc; simpl;
    intros Hab Hbc Hx Hy;
    try discriminate;
    try (injection Hab as <-); try (injection Hbc as <-);
    try congruence;
    fold_pos_compare;
    repeat match goal with
    | H : context [(?p ?= ?q)%Z] |- _ =>
        destruct (Z.compare_spec p q); simpl in H
    | |- context [(?p ?= ?q)%Z] =>
        destruct (Z.compare_spec p q); simpl
    | H : context [(?p ?= ?q)%positive] |- _ =>
        destruct (Pos.compare_spec p q); simpl in H
    | |- context [(?p ?= ?q)%positive] =>
        destruct (Pos.compare_spec p q); simpl
    end; subst; simpl in *; try reflexivity; try congruence; try lia.
Qed.

Lemma SFcompare_None (a b : spec_float) :
  SFcompare a b = None <-> a = S754_nan \/ b = S754_nan.
Proof.
  destruct a as [sa | sa | | sa ma ea], b as [sb | sb | | sb mb eb];
    simpl; split; intros H; try discriminate; try tauto;
    destruct H as [H | H]; discriminate.
Qed.

Lemma ltb_fcmp (x y : float) : (x <? y) = is_lt (fcmp x y).
Proof. apply FloatAxioms.ltb_spec. Qed.

Lemma leb_fcmp (x y : float) : (x <=? y) = is_le (fcmp x y).
Proof. apply FloatAxioms.leb_spec. Qed.

Lemma eqb_fcmp (x y : float) : (x =? y) = is_eq (fcmp x y).
Proof. apply FloatAxioms.eqb_spec. Qed.

Lemma fcmp_flip (x y : float) : fcmp y x = option_map CompOpp (fcmp x y).
Proof. apply SFcompare_flip. Qed.

(** The same comparisons with the second operand as the subject. *)
Lemma gtb_fcmp (x c : float) : (c <? x) = is_gt (fcmp x c).
Proof. rewrite ltb_fcmp, fcmp_flip. now destruct (fcmp x c) as [[] |]. Qed.

Lemma geb_fcmp (x c : float) : (c <=? x) = is_ge (fcmp x c).
Proof. rewrite leb_fcmp, fcmp_flip. now destruct (fcmp x c) as [[] |]. Qed.

Lemma fcmp_below (x c1 c2 : float) :
  fcmp c1 c2 = Some Lt -> below_then_below (fcmp x c1) (fcmp x c2).
Proof.
  unfold fcmp, below_then_below. intros Hc.
  destruct (SFcompare (Prim2SF x) (Prim2SF c1)) as [k1 |] eqn:K1.
  - destruct k1.
    + now rewrite (SFcompare_trans _ _ _ Eq Lt K1 Hc).
    + now rewrite (SFcompare_trans _ _ _ Lt Lt K1 Hc).
    + destruct (SFcompare (Prim2SF x) (Prim2SF c2)) eqn:K2; [exact I |].
      apply SFcompare_None in K2 as [K2 | K2].
      * rewrite K2 in K1. discriminate K1.
      * rewrite K2 in Hc. destruct (Prim2SF c1); discriminate Hc.
  - apply SFcompare_None in K1 as [K1 | K1].
    + now rewrite K1.
    + rewrite K1 in Hc. discriminate Hc.
Qed.

Lemma fcmp_smaller (x y c : float) :
  (x <=? y) = true -> fcmp c c = Some Eq ->
  smaller_then_lower (fcmp x c) (fcmp y c).
Proof.
  rewrite leb_fcmp. unfold fcmp, smaller_then_lower. intros Hxy Hc.
  destruct (SFcompare (Prim2SF x) (Prim2SF y)) as [kxy |] eqn:Kxy;
    [| discriminate Hxy].
  assert (Hk : kxy <> Gt) by (destruct kxy; [discriminate.. | discriminate Hxy]).
  destruct (SFcompare (Prim2SF y) (Prim2SF c)) as [k2 |] eqn:K2.
  - destruct k2.
    + rewrite (SFcompare_trans _ _ _ kxy Eq Kxy K2) by congruence.
      now destruct kxy.
    + rewrite (SFcompare_trans _ _ _ kxy Lt Kxy K2) by congruence.
      now destruct kxy.
    + destruct (SFcompare (Prim2SF x) (Prim2SF c)) as [[] |] eqn:K1;
        try exact I.
      apply SFcompare_None in K1 as [K1 | K1].
      * rewrite K1 in Kxy. discriminate Kxy.
      * rewrite K1 in Hc. discriminate Hc.
  - apply SFcompare_None in K2 as [K2 | K2].
    + rewrite K2 in Kxy. destruct (Prim2SF x); discriminate Kxy.
    + rewrite K2 in Hc. discriminate Hc.
Qed.

(** [x] is NaN exactly when it is not comparable with a proper constant. *)
Lemma is_nan_fcmp (x c : float) :
  fcmp c c = Some Eq ->
  is_nan x = match fcmp x c with None => true | Some _ => false end.
Proof.
  unfold is_nan. rewrite eqb_fcmp. unfold fcmp. intros Hc.
  destruct (SFcompare (Prim2SF x) (Prim2SF c)) eqn:K.
  - destruct (SFcompare (Prim2SF x) (Prim2SF x)) as [[] |] eqn:Kx;
      try reflexivity; exfalso.
    + destruct (Prim2SF x) as [| [] | | [] m e]; simpl in Kx;
        try discriminate; fold_pos_compare;
        rewrite Z.compare_refl, Pos.compare_refl in Kx; discriminate.
    + destruct (Prim2SF x) as [| [] | | [] m e]; simpl in Kx;
        try discriminate; fold_pos_compare;
        rewrite Z.compare_refl, Pos.compare_refl in Kx; discriminate.
    + apply SFcompare_None in Kx as [Kx | Kx]; rewrite Kx in K;
        discriminate K.
  - apply SFcompare_None in K as [K | K].
    + now rewrite K.
    + rewrite K in Hc. discriminate Hc.
Qed.

(** A float at or below zero is not above it. *)
Lemma not_positive (x : float) :
  (x <=? 0) = true \/ is_nan x = true -> (0 <? x) = false.
Proof.
  rewrite (is_nan_fcmp x 0 eq_refl), leb_fcmp, gtb_fcmp.
  destruct (fcmp x 0) as [[] |]; simpl; intros [H | H];
    try reflexivity; discriminate H.
Qed.

(** ** BMI *)

(** Express every comparison of [b] with a literal of the chain through
    [fcmp], then go through the positions of [b] that are possible. *)
Ltac positions b :=
  rewrite ?(ltb_fcmp b), ?(leb_fcmp b), ?(geb_fcmp b), ?(gtb_fcmp b),
    ?(is_nan_fcmp b 18.5 eq_refl) in *;
  pose proof (fcmp_below b 18.5 24.9 eq_refl);
  pose proof (fcmp_below b 24.9 25 eq_refl);
  pose proof (fcmp_below b 25 29.9 eq_refl);
  destruct (fcmp b 18.5) as [[] |], (fcmp b 24.9) as [[] |],
    (fcmp b 25) as [[] |], (fcmp b 29.9) as [[] |];
  simpl in *; try contradiction.

Lemma classify_cases (b : float) :
  ((b <? 18.5) = true -> classify b = Underweight)
  /\ ((18.5 <=? b) = true -> (b <? 24.9) = true -> classify b = Normal)
  /\ ((25 <=? b) = true -> (b <? 29.9) = true -> classify b = Overweight)
  /\ ((24.9 <=? b) = true -> (b <? 25) = true -> classify b = Obese)
  /\ ((29.9 <=? b) = true -> classify b = Obese)
  /\ (is_nan b = true -> classify b = Obese).
Proof.
  unfold classify. positions b;
    repeat split; intros; try reflexivity; discriminate.
Qed.

Lemma classify_inv (b : float) :
  (classify b = Underweight -> (b <? 18.5) = true)
  /\ (classify b = Normal -> (18.5 <=? b) = true /\ (b <? 24.9) = true)
  /\ (classify b = Overweight -> (25 <=? b) = true /\ (b <? 29.9) = true)
  /\ (classify b = Obese ->
      in_gap b \/ (29.9 <=? b) = true \/ is_nan b = true).
Proof.
  unfold classify, in_gap. positions b;
    repeat split; intros; try reflexivity; try discriminate; tauto.
Qed.

Lemma bmi_button_runs
    (pow_2 : float -> result float) (w h square : float)
    (st : session_state) :
  (0 <? h) = true -> pow_2 h = Ok square -> (square =? 0) = false ->
  exec (bmi_button pow_2 w h) st
  = (Ok tt,
     World st
       [st_subheader (Fixed2 "Your BMI: " (w / square) "");
        advice (classify (w / square))]).
Proof.
  intros Hh Hp Hz.
  unfold exec, bmi_button, bmi_of, float_div, lift, mbind, M_bind, result_bind.
  rewrite Hh, Hp, Hz. reflexivity.
Qed.





(** C2. For a positive weight and a positive height the widget shown
    follows the table on the computed BMI value: a value in [0, 18.5) gives
    the Underweight message, in [18.5, 24.9) the Normal one, in [25, 29.9)
    the Overweight one and in [29.9, ∞) the Obesity one; so 18.49999 is
    Underweight, 18.5 and 24.89999 Normal, 25.0 and 29.89999 Overweight, and
    29.9 Obese. *)
Theorem bmi_category_table
    (pow_2 : float -> result float) (w h bmi : float) (st : session_state) :
  (0 <? w) = true -> (0 <? h) = true -> bmi_of pow_2 w h = Ok bmi ->
  let shows widget :=
    exec (bmi_button pow_2 w h) st
    = (Ok tt, World st [st_subheader (Fixed2 "Your BMI: " bmi ""); widget]) in
  let underweight :=
    st_info (Lit "Underweight: Aim for a balanced diet and regular meals.") in
  let normal :=
    st_success (Lit "Normal weight: Great job maintaining your health!") in
  let overweight :=
    st_warning
      (Lit "Overweight: Consider regular exercise and dietary adjustments.") in
  let obese :=
    st_error (Lit "Obesity: Consult a healthcare professional for guidance.") in
  ((0 <=? bmi) = true /\ (bmi <? 18.5) = true -> shows underweight)
  /\ ((18.5 <=? bmi) = true /\ (bmi <? 24.9) = true -> shows normal)
  /\ ((25 <=? bmi) = true /\ (bmi <? 29.9) = true -> shows overweight)
  /\ ((29.9 <=? bmi) = true -> shows obese)
  /\ (bmi = 18.49999 -> shows underweight)
  /\ (bmi = 18.5 -> shows normal)
  /\ (bmi = 24.89999 -> shows normal)
  /\ (bmi = 25.0 -> shows overweight)
  /\ (bmi = 29.89999 -> shows overweight)
  /\ (bmi = 29.9 -> shows obese).
Proof.
  intros Hw Hh Hbmi. cbv zeta.
  assert (Hrun : exec (bmi_button pow_2 w h) st
                 = (Ok tt,
                    World st
                      [st_subheader (Fixed2 "Your BMI: " bmi "");
                       advice (classify bmi)])).
  { unfold exec, bmi_button, lift, mbind, M_bind. now rewrite Hh, Hbmi. }
  rewrite Hrun.
  destruct (classify_cases bmi) as (Hu & Hn & Ho & _ & Hb & _).
  split; [intros [_ H]; now rewrite (Hu H) |].
  split; [intros [H1 H2]; now rewrite (Hn H1 H2) |].
  split; [intros [H1 H2]; now rewrite (Ho H1 H2) |].
  split; [intros H; now rewrite (Hb H) |].
  repeat split; intros ->; reflexivity.
Qed.

Lemma bmi_category_table_at_18_5 :
  (0 <? 18.5) = true /\ (0 <? 1) = true
  /\ bmi_of square_pow 18.5 1 = Ok 18.5
  /\ exec (bmi_button square_pow 18.5 1) ∅
     = (Ok tt,
        World ∅
          [st_subheader (Fixed2 "Your BMI: " 18.5 "");
           st_success
             (Lit "Normal weight: Great job maintaining your health!")]).
Proof.
  split; [reflexivity | split; [reflexivity | split; [reflexivity |]]].
  pose proof (bmi_category_table square_pow 18.5 1 18.5 ∅
                eq_refl eq_refl eq_refl) as T.
  cbv zeta in T. destruct T as (_ & _ & _ & _ & _ & T & _).
  apply T. reflexivity.
Defined.

(** C3, as stated, fails: 24.95 kg at 1 m are positive inputs and their
    computed BMI, 24.95, lies in the gap [24.9, 25). *)
Lemma bmi_gap_is_hit_at_24_95 :
  ~ (forall w h bmi : float,
       (0 <? w) = true -> (0 <? h) = true ->
       bmi_of square_pow w h = Ok bmi -> ~ in_gap bmi).
Proof.
  intros H. apply (H 24.95 1 24.95); try reflexivity.
  split; reflexivity.
Qed.

(** C3, amended. The gap [24.9, 25) between the boundary literals is
    reachable: 24.95 kg at 1 m are positive inputs whose computed BMI,
    24.95, falls in it, whatever C library computes [1.0 ** 2 = 1.0]. *)
Theorem bmi_gap_reachable (pow_2 : float -> result float) :
  pow_2 1 = Ok 1 ->
  exists w h bmi,
    (0 <? w) = true /\ (0 <? h) = true
    /\ bmi_of pow_2 w h = Ok bmi /\ in_gap bmi
    /\ w = 24.95 /\ h = 1 /\ bmi = 24.95.
Proof.
  intros Hp. exists 24.95, 1, 24.95.
  split; [reflexivity | split; [reflexivity |]].
  split; [unfold bmi_of, mbind, result_bind; now rewrite Hp |].
  repeat split; reflexivity.
Qed.

Lemma bmi_gap_reachable_square_pow :
  square_pow 1 = Ok 1
  /\ exists w h bmi,
       (0 <? w) = true /\ (0 <? h) = true
       /\ bmi_of square_pow w h = Ok bmi /\ in_gap bmi.
Proof.
  split; [reflexivity |].
  destruct (bmi_gap_reachable square_pow eq_refl)
    as (w & h & bmi & Hw & Hh & Hb & Hg & _).
  exists w, h, bmi. repeat split; assumption || apply Hg.
Defined.

(** C10. A positive weight and height whose computed BMI lies in the gap
    [24.9, 25) reach the final [else] branch: the handler shows the Obesity
    message, not the Normal or the Overweight one; 24.95 kg at 1 m does
    so. *)
Theorem bmi_gap_is_classified_obese
    (pow_2 : float -> result float) (w h bmi : float) (st : session_state) :
  (0 <? w) = true -> (0 <? h) = true ->
  bmi_of pow_2 w h = Ok bmi -> in_gap bmi ->
  classify bmi = Obese
  /\ exec (bmi_button pow_2 w h) st
     = (Ok tt,
        World st
          [st_subheader (Fixed2 "Your BMI: " bmi "");
           st_error
             (Lit "Obesity: Consult a healthcare professional for guidance.")])
  /\ (forall widget,
        exec (bmi_button pow_2 w h) st
        = (Ok tt,
           World st [st_subheader (Fixed2 "Your BMI: " bmi ""); widget]) ->
        widget
        <> st_success (Lit "Normal weight: Great job maintaining your health!")
        /\ widget
           <> st_warning
                (Lit "Overweight: Consider regular exercise and dietary adjustments."))
  /\ (pow_2 1 = Ok 1 ->
      exec (bmi_button pow_2 24.95 1) st
      = (Ok tt,
         World st
           [st_subheader (Fixed2 "Your BMI: " 24.95 "");
            st_error
              (Lit "Obesity: Consult a healthcare professional for guidance.")])).
Proof.
  intros Hw Hh Hbmi [Hlo Hhi].
  destruct (classify_cases bmi) as (_ & _ & _ & Hg & _).
  specialize (Hg Hlo Hhi).
  assert (Hrun : exec (bmi_button pow_2 w h) st
                 = (Ok tt,
                    World st
                      [st_subheader (Fixed2 "Your BMI: " bmi "");
                       advice (classify bmi)])).
  { unfold exec, bmi_button, lift, mbind, M_bind. now rewrite Hh, Hbmi. }
  rewrite Hrun, Hg.
  split; [reflexivity | split; [reflexivity | split]].
  - intros widget E. injection E as <-. split; discriminate.
  - intros Hp. now rewrite (bmi_button_runs pow_2 24.95 1 1 st eq_refl Hp eq_refl).
Qed.

Lemma bmi_gap_is_classified_obese_at_24_95 :
  (0 <? 24.95) = true /\ (0 <? 1) = true
  /\ bmi_of square_pow 24.95 1 = Ok 24.95 /\ in_gap 24.95
  /\ exec (bmi_button square_pow 24.95 1) ∅
     = (Ok tt,
        World ∅
          [st_subheader (Fixed2 "Your BMI: " 24.95 "");
           st_error
             (Lit "Obesity: Consult a healthcare professional for guidance.")]).
Proof.
  assert (G : in_gap 24.95) by (split; reflexivity).
  split; [reflexivity | split; [reflexivity | split; [reflexivity |]]].
  split; [exact G |].
  destruct (bmi_gap_is_classified_obese square_pow 24.95 1 24.95 ∅
              eq_refl eq_refl eq_refl G) as (_ & T & _).
  exact T.
Defined.

(** ** The multiplier tables *)

Lemma calorie_table_lookup (a : spec_activity) :
  activity_multipliers !! label_of a = Some (spec_calorie_multiplier a).
Proof. destruct a; reflexivity. Qed.

Lemma water_table_lookup (a : spec_activity) :
  activity_multiplier !! label_of a = Some (ml_per_kg a).
Proof. destruct a; reflexivity. Qed.

Lemma water_multiplier_float (a : spec_activity) :
  float_of_int (ml_per_kg a) = Ok (spec_water_multiplier a).
Proof. destruct a; reflexivity. Qed.

Lemma unknown_label_absent {V : Type} (v1 v2 v3 v4 : V) (l : string) :
  ~ known_label l ->
  ({[ Sedentary := v1; Lightly_active := v2;
      Moderately_active := v3; Very_active := v4 ]} : gmap string V) !! l
  = None.
Proof.
  unfold known_label. intros Hl.
  rewrite !lookup_insert_ne, lookup_singleton_ne; [reflexivity | ..];
    intros E; apply Hl; rewrite E; tauto.
Qed.

Lemma calorie_guard (age : Z) (w h : float) :
  (0 <? age)%Z && (0 <? w) && (0 <? h) = true
  <-> (0 < age)%Z /\ (0 <? w) = true /\ (0 <? h) = true.
Proof.
  rewrite !andb_true_iff, Z.ltb_lt. tauto.
Qed.

(** An int below the bound converts without [OverflowError]. *)
Lemma float_of_int_in_range (z : Z) :
  (0 <= z < float_int_limit)%Z -> float_of_int z = Ok (nearest_float z).
Proof.
  intros Hz. unfold float_of_int.
  rewrite Z.abs_eq by lia.
  now rewrite (proj2 (Z.ltb_lt z float_int_limit)) by lia.
Qed.

Lemma calorie_req_button_runs
    (age : Z) (w h : float) (g : string) (a : spec_activity)
    (st : session_state) :
  (0 < age)%Z -> (5 * age < float_int_limit)%Z ->
  (0 <? w) = true -> (0 <? h) = true ->
  exec (calorie_req_button age w h g (label_of a)) st
  = (Ok tt,
     World st
       (calorie_page
          ((10 * w + 6.25 * (h * 100) - nearest_float (5 * age)
            + (if String.eqb g "Male" then 5 else -161))
           * spec_calorie_multiplier a))).
Proof.
  intros Ha Hlim Hw Hh.
  assert (G := proj2 (calorie_guard age w h) (conj Ha (conj Hw Hh))).
  unfold exec, calorie_req_button, bmr_of, subscript. rewrite G.
  unfold lift, mbind, M_bind, result_bind.
  rewrite float_of_int_in_range by lia.
  rewrite calorie_table_lookup. reflexivity.
Qed.

Lemma water_button_runs (w : float) (a : spec_activity) (st : session_state) :
  exec (water_button w (label_of a)) st
  = (Ok tt, World st (water_page (w * spec_water_multiplier a / 1000))).
Proof.
  unfold exec, water_button, subscript, lift, mbind, M_bind.
  rewrite water_table_lookup, water_multiplier_float. reflexivity.
Qed.

(** C4, as stated, fails: for age 25, 1e308 kg, 1.75 m, Male, Sedentary the
    product [10 * weight] overflows and the handler displays an infinite
    figure, not the value of the formula. *)
Lemma daily_calories_infinite_at_1e308 :
  ((0 < 25)%Z /\ (0 <? 1e308) = true /\ (0 <? 1.75) = true
   /\ exec (calorie_req_button 25 1e308 1.75 "Male" Sedentary) ∅
      = (Ok tt, World ∅ (calorie_page infinity)))
  /\ ~ (forall (age : Z) (w h : float) (s : spec_sex) (a : spec_activity),
          (0 < age)%Z -> (0 <? w) = true -> (0 <? h) = true ->
          exists kcal,
            exec (calorie_req_button age w h (sex_label s) (label_of a)) ∅
            = (Ok tt, World ∅ (calorie_page kcal))
            /\ is_finite kcal = true).
Proof.
  split; [repeat split |].
  intros H.
  destruct (H 25%Z 1e308 1.75 Male SedentaryLevel eq_refl eq_refl eq_refl)
    as (kcal & E & Hfin).
  injection E as <-. discriminate Hfin.
Qed.

(** C4, amended. For a positive age (with [5 * age] in the range of the
    floats), weight and height, either sex and any of the four activity
    labels, the calorie handler displays the binary64 value of
    [(10·weight + 6.25·(height·100) − 5·age + (5 if Male else −161))],
    computed in that order, times the multiplier of the table
    1.2 / 1.375 / 1.55 / 1.725 found under the label, with no rounding to
    decimals; the value is infinite when an intermediate result overflows.
    For age 25, 70 kg, 1.75 m, Male, Sedentary it is
    1673.75 × 1.2 = 2008.5 kcal. *)
Theorem daily_calories_formula
    (age : Z) (w h : float) (s : spec_sex) (a : spec_activity)
    (st : session_state) :
  (0 < age)%Z -> (5 * age < float_int_limit)%Z ->
  (0 <? w) = true -> (0 <? h) = true ->
  (exists kcal,
     exec (calorie_req_button age w h (sex_label s) (label_of a)) st
     = (Ok tt,
        World st
          [st_success (Fixed2 "Your daily calorie requirement: " kcal " kcal")])
     /\ subscript activity_multipliers (label_of a)
        = Ok (spec_calorie_multiplier a)
     /\ kcal = spec_daily_calories age w h s a)
  /\ (exists kcal,
        exec (calorie_req_button 25 70 1.75 "Male" Sedentary) st
        = (Ok tt,
           World st
             [st_success
                (Fixed2 "Your daily calorie requirement: " kcal " kcal")])
        /\ bmr_of 25 70 1.75 "Male" = Ok 1673.75
        /\ kcal = 1673.75 * 1.2
        /\ kcal = 2008.5
        /\ (2008.49 <=? kcal) && (kcal <=? 2008.51) = true).
Proof.
  intros Ha Hlim Hw Hh. split.
  - eexists. rewrite calorie_req_button_runs by assumption.
    split; [reflexivity |].
    split; [unfold subscript; now rewrite calorie_table_lookup |].
    unfold spec_daily_calories. destruct s; reflexivity.
  - exists 2008.5. repeat split.
Qed.

Lemma daily_calories_formula_default_inputs :
  (0 < 25)%Z /\ (5 * 25 < float_int_limit)%Z
  /\ (0 <? 70) = true /\ (0 <? 1.75) = true
  /\ exists kcal,
       exec (calorie_req_button 25 70 1.75 (sex_label Male)
               (label_of SedentaryLevel)) ∅
       = (Ok tt,
          World ∅
            [st_success
               (Fixed2 "Your daily calorie requirement: " kcal " kcal")])
       /\ kcal = 2008.5.
Proof.
  split; [reflexivity | split; [reflexivity |]].
  split; [reflexivity | split; [reflexivity |]].
  destruct (daily_calories_formula 25 70 1.75 Male SedentaryLevel ∅
              eq_refl eq_refl eq_refl eq_refl) as [(kcal & E & _ & T) _].
  exists kcal. split; [exact E |]. rewrite T. reflexivity.
Defined.

(** C5, as stated, fails: for 1e307 kg, Very active, the product
    [weight * 45] overflows before the division and the handler displays an
    infinite figure, although [weight × 45 / 1000] is about 4.5e305, a
    float. *)
Lemma water_infinite_at_1e307 :
  ((0 <? 1e307) = true
   /\ exec (water_button 1e307 Very_active) ∅
      = (Ok tt, World ∅ (water_page infinity))
   /\ is_finite (1e307 * (45 / 1000)) = true)
  /\ ~ (forall (w : float) (a : spec_activity),
          (0 <? w) = true ->
          exists liters,
            exec (water_button w (label_of a)) ∅
            = (Ok tt, World ∅ (water_page liters))
            /\ is_finite liters = true).
Proof.
  split; [repeat split |].
  intros H. destruct (H 1e307 VeryActive eq_refl) as (liters & E & Hfin).
  injection E as <-. discriminate Hfin.
Qed.

(** C5, amended. For a positive weight and any of the four activity labels
    the water handler displays the binary64 value of
    [(weight × multiplier) / 1000], the product taken first, the multiplier
    being 30 / 35 / 40 / 45 mL per kg under the label; the value is infinite
    when the product overflows. 70 kg, Moderately active gives 2.8
    litres. *)
Theorem water_intake_formula
    (w : float) (a : spec_activity) (st : session_state) :
  (0 <? w) = true ->
  (exists liters,
     exec (water_button w (label_of a)) st
     = (Ok tt,
        World st
          [st_success
             (Fixed2 "You should drink approximately " liters
                     " liters of water daily.")])
     /\ liters = spec_water_liters w a
     /\ liters = w * spec_water_multiplier a / 1000)
  /\ (exists liters,
        exec (water_button 70 Moderately_active) st
        = (Ok tt,
           World st
             [st_success
                (Fixed2 "You should drink approximately " liters
                        " liters of water daily.")])
        /\ liters = 70 * 40 / 1000
        /\ liters = 2.8).
Proof.
  intros _. split.
  - eexists. rewrite water_button_runs. repeat split.
  - exists 2.8. repeat split.
Qed.

Lemma water_intake_formula_at_70 :
  (0 <? 70) = true
  /\ exists liters,
       exec (water_button 70 (label_of ModeratelyActive)) ∅
       = (Ok tt,
          World ∅
            [st_success
               (Fixed2 "You should drink approximately " liters
                       " liters of water daily.")])
       /\ liters = 2.8.
Proof.
  split; [reflexivity |].
  destruct (water_intake_formula 70 ModeratelyActive ∅ eq_refl)
    as [(liters & E & T & _) _].
  exists liters. split; [exact E |]. rewrite T. reflexivity.
Defined.

(** C6. When the age, the weight or the height is not positive (age 0 in
    particular) the calorie handler takes its validation branch: it shows
    "Please provide valid inputs.", looks nothing up, computes nothing and
    displays no number, whatever the sex and activity strings are. *)
Theorem daily_calories_rejects_nonpositive
    (age : Z) (w h : float) (gender activity_level : string)
    (st : session_state) :
  (age <= 0)%Z \/ (w <=? 0) = true \/ (h <=? 0) = true ->
  exec (calorie_req_button age w h gender activity_level) st
  = (Ok tt, World st [st_error (Lit "Please provide valid inputs.")])
  /\ (forall w' h',
        exec (calorie_req_button 0 w' h' gender activity_level) st
        = (Ok tt, World st [st_error (Lit "Please provide valid inputs.")])).
Proof.
  intros Hbad. split.
  - unfold exec, calorie_req_button.
    destruct ((0 <? age)%Z && (0 <? w) && (0 <? h)) eqn:G; [| reflexivity].
    apply calorie_guard in G. destruct G as (Ga & Gw & Gh).
    destruct Hbad as [Hbad | [Hbad | Hbad]]; [lia | |].
    + rewrite (not_positive w (or_introl Hbad)) in Gw. discriminate Gw.
    + rewrite (not_positive h (or_introl Hbad)) in Gh. discriminate Gh.
  - intros w' h'. reflexivity.
Qed.

Lemma daily_calories_rejects_age_zero :
  ((0 <= 0)%Z \/ (70 <=? 0) = true \/ (1.75 <=? 0) = true)
  /\ exec (calorie_req_button 0 70 1.75 "Male" Sedentary) ∅
     = (Ok tt, World ∅ [st_error (Lit "Please provide valid inputs.")]).
Proof.
  assert (H : (0 <= 0)%Z \/ (70 <=? 0) = true \/ (1.75 <=? 0) = true)
    by (left; lia).
  split; [exact H |].
  apply (daily_calories_rejects_nonpositive 0 70 1.75 "Male" Sedentary ∅ H).
Defined.

(** C7. An activity level outside the four labels makes either multiplier
    lookup raise [KeyError], a [LookupError]: no default multiplier is
    substituted, and the handler that reaches the lookup stops there with
    nothing displayed. *)
Theorem unknown_activity_raises_KeyError (level : string) :
  ~ known_label level ->
  subscript activity_multipliers level = Raise (KeyError level)
  /\ subscript activity_multiplier level = Raise (KeyError level)
  /\ is_LookupError (KeyError level) = true
  /\ (forall w st,
        exec (water_button w level) st = (Raise (KeyError level), World st []))
  /\ (forall age w h gender st,
        (0 < age)%Z -> (5 * age < float_int_limit)%Z ->
        (0 <? w) = true -> (0 <? h) = true ->
        exec (calorie_req_button age w h gender level) st
        = (Raise (KeyError level), World st [])).
Proof.
  intros Hl.
  assert (Hc : subscript activity_multipliers level = Raise (KeyError level)).
  { unfold subscript, activity_multipliers.
    now rewrite unknown_label_absent. }
  assert (Hw : subscript activity_multiplier level = Raise (KeyError level)).
  { unfold subscript, activity_multiplier.
    now rewrite unknown_label_absent. }
  split; [exact Hc | split; [exact Hw | split; [reflexivity | split]]].
  - intros w st. unfold exec, water_button, mbind, M_bind, lift.
    rewrite Hw. reflexivity.
  - intros age w h gender st Ha Hlim Hpw Hph.
    assert (G := proj2 (calorie_guard age w h) (conj Ha (conj Hpw Hph))).
    unfold exec, calorie_req_button, bmr_of. rewrite G.
    unfold mbind, M_bind, result_bind, lift.
    rewrite float_of_int_in_range by lia. rewrite Hc. reflexivity.
Qed.

Lemma unknown_activity_raises_KeyError_couch :
  ~ known_label "Couch potato"
  /\ exec (water_button 70 "Couch potato") ∅
     = (Raise (KeyError "Couch potato"), World ∅ []).
Proof.
  assert (H : ~ known_label "Couch potato").
  { intros [E | [E | [E | E]]]; discriminate E. }
  split; [exact H |].
  apply (unknown_activity_raises_KeyError "Couch potato" H).
Defined.

(** ** The meal log *)

Lemma py_or_default (t d : string) :
  py_or t d = if decide (t = "") then d else t.
Proof. destruct t; reflexivity. Qed.

Lemma readAll_insert (logs : list meal_record) (st : session_state) :
  readAll (<["meal_logs" := logs]> st) = logs.
Proof. unfold readAll. now rewrite lookup_insert_eq. Qed.

(** Logging stores the old records followed by the new one under
    ["meal_logs"], whether or not the key was there before. *)
Lemma log_meal_appends (t a : string) (st : session_state)
    (out : list ui_event) :
  log_meal t a (World st out)
  = (Ok tt,
     World (<["meal_logs" := readAll st ++ [record_of t a]]> st) out).
Proof.
  unfold log_meal, record_of, readAll, mbind, M_bind, get_session.
  rewrite py_or_default. cbn [session rendered].
  destruct (decide ("meal_logs" ∈ dom st)) as [Hin | Hout].
  - apply elem_of_dom in Hin as [logs Hlogs].
    unfold mret, M_ret, lift, subscript, set_item. cbn [session rendered].
    rewrite Hlogs. reflexivity.
  - apply not_elem_of_dom in Hout.
    unfold lift, subscript, set_item. cbn [session rendered].
    rewrite lookup_insert_eq, Hout. cbn [session rendered default].
    now rewrite insert_insert_eq.
Qed.

Lemma calorie_button_success
    (gc : string -> image_part -> result string)
    (f : uploaded_file) (t a : string) (st : session_state) :
  gc (full_prompt_of t) (part_of f) = Ok a ->
  exec (calorie_button gc (Some f) t) st
  = (Ok tt,
     World (<["meal_logs" := readAll st ++ [record_of t a]]> st)
           [st_success (Lit "Analysis Complete!"); st_write a]).
Proof.
  intros Hgc.
  unfold exec, calorie_button, try_except, get_gemini_response,
    input_image_setup, mbind, M_bind, lift, render.
  fold (part_of f). rewrite Hgc. cbn [session rendered app].
  now rewrite log_meal_appends.
Qed.

(** C8. Logging appends at the end and keeps the order: after a successful
    analysis the log is the previous log followed by the record
    {meal name: the user's text, or "Unnamed Meal" when it is empty;
    analysis: the returned text}, and after two successful analyses it is
    the previous log followed by [R1; R2], never by [R2; R1]. *)
Theorem meal_log_appends_in_order
    (gc1 gc2 : string -> image_part -> result string)
    (f1 f2 : uploaded_file) (t1 t2 a1 a2 : string) (st : session_state) :
  gc1 (full_prompt_of t1) (part_of f1) = Ok a1 ->
  gc2 (full_prompt_of t2) (part_of f2) = Ok a2 ->
  let R1 := MealRecord (if decide (t1 = "") then "Unnamed Meal" else t1) a1 in
  let R2 := MealRecord (if decide (t2 = "") then "Unnamed Meal" else t2) a2 in
  exists st1 st2,
    exec (calorie_button gc1 (Some f1) t1) st
    = (Ok tt, World st1 [st_success (Lit "Analysis Complete!"); st_write a1])
    /\ exec (calorie_button gc2 (Some f2) t2) st1
       = (Ok tt, World st2 [st_success (Lit "Analysis Complete!"); st_write a2])
    /\ readAll st1 = readAll st ++ [R1]
    /\ readAll st2 = readAll st ++ [R1; R2]
    /\ (R1 <> R2 -> readAll st2 <> readAll st ++ [R2; R1]).
Proof.
  intros H1 H2 R1 R2.
  eexists _, _.
  split; [apply (calorie_button_success gc1 f1 t1 a1 st H1) |].
  split; [apply (calorie_button_success gc2 f2 t2 a2 _ H2) |].
  rewrite !readAll_insert. fold (record_of t1 a1). fold R1.
  split; [reflexivity |].
  rewrite <- app_assoc. split; [reflexivity |].
  intros Hne E. apply app_inv_head in E.
  change ([R1; R2] = [R2; R1]) in E. apply Hne.
  change (default R1 (head [R1; R2]) = default R1 (head [R2; R1])).
  now rewrite E.
Qed.

Lemma meal_log_appends_in_order_two_meals :
  let gc := fun (_ : string) (_ : image_part) => Ok "about 520 kcal" in
  let f := UploadedFile "image/png" [] in
  gc (full_prompt_of "") (part_of f) = Ok "about 520 kcal"
  /\ gc (full_prompt_of "lunch") (part_of f) = Ok "about 520 kcal"
  /\ exists st1 st2,
       exec (calorie_button gc (Some f) "") ∅
       = (Ok tt,
          World st1
            [st_success (Lit "Analysis Complete!"); st_write "about 520 kcal"])
       /\ exec (calorie_button gc (Some f) "lunch") st1
          = (Ok tt,
             World st2
               [st_success (Lit "Analysis Complete!");
                st_write "about 520 kcal"])
       /\ readAll st2
          = [MealRecord "Unnamed Meal" "about 520 kcal";
             MealRecord "lunch" "about 520 kcal"].
Proof.
  intros gc f. split; [reflexivity | split; [reflexivity |]].
  destruct (meal_log_appends_in_order gc gc f f "" "lunch"
              "about 520 kcal" "about 520 kcal" ∅ eq_refl eq_refl)
    as (st1 & st2 & E1 & E2 & _ & E4 & _).
  exists st1, st2. split; [exact E1 | split; [exact E2 | exact E4]].
Defined.

(** C9. When the analysis call raises, whatever the error, the handler
    catches it, shows one error message made of "Error: " and the cause,
    and leaves the session state, hence the meal log, as it was. *)
Theorem analysis_failure_leaves_log_unchanged
    (gc : string -> image_part -> result string)
    (f : uploaded_file) (t : string) (e : exn) (st : session_state) :
  gc (full_prompt_of t) (part_of f) = Raise e ->
  exec (calorie_button gc (Some f) t) st
  = (Ok tt, World st [st_error (Caught "Error: " e)])
  /\ session (exec (calorie_button gc (Some f) t) st).2 = st
  /\ readAll (session (exec (calorie_button gc (Some f) t) st).2)
     = readAll st.
Proof.
  intros Hgc.
  assert (E : exec (calorie_button gc (Some f) t) st
              = (Ok tt, World st [st_error (Caught "Error: " e)])).
  { unfold exec, calorie_button, try_except, get_gemini_response,
      input_image_setup, mbind, M_bind, lift, render.
    fold (part_of f). rewrite Hgc. reflexivity. }
  rewrite E. split; [reflexivity | split; reflexivity].
Qed.

Lemma analysis_failure_quota_exceeded :
  let gc := fun (_ : string) (_ : image_part) =>
              Raise (ExternalError "429 quota exceeded") in
  let f := UploadedFile "image/jpeg" [] in
  let st : session_state := {[ "meal_logs" := [MealRecord "lunch" "520 kcal"] ]} in
  gc (full_prompt_of "dinner") (part_of f)
  = Raise (ExternalError "429 quota exceeded")
  /\ exec (calorie_button gc (Some f) "dinner") st
     = (Ok tt,
        World st
          [st_error (Caught "Error: " (ExternalError "429 quota exceeded"))]).
Proof.
  intros gc f st. split; [reflexivity |].
  apply (analysis_failure_leaves_log_unchanged gc f "dinner" _ st eq_refl).
Defined.

(** * Further properties of the handlers *)

(** ** BMI: the height guard and the branches *)

(** X1. With a height that is not positive the BMI handler divides nothing:
    whatever the weight, it shows "Height must be greater than zero." and
    nothing else, and the session state stays as it was. A NaN height is
    treated the same way. *)
Theorem bmi_button_rejects_nonpositive_height
    (pow_2 : float -> result float) (w h : float) (st : session_state) :
  (h <=? 0) = true \/ is_nan h = true ->
  exec (bmi_button pow_2 w h) st
  = (Ok tt, World st [st_error (Lit "Height must be greater than zero.")]).
Proof.
  intros Hh. apply not_positive in Hh.
  unfold exec, bmi_button. rewrite Hh. reflexivity.
Qed.

Lemma bmi_button_rejects_height_zero :
  ((0 <=? 0) = true \/ is_nan 0 = true)
  /\ exec (bmi_button square_pow 70 0) ∅
     = (Ok tt, World ∅ [st_error (Lit "Height must be greater than zero.")]).
Proof.
  assert (H : (0 <=? 0) = true \/ is_nan 0 = true) by (left; reflexivity).
  split; [exact H |].
  apply (bmi_button_rejects_nonpositive_height square_pow 70 0 ∅ H).
Defined.

(** X2. The branches of the BMI chain partition the floats: a value is
    Underweight exactly below 18.5, Normal exactly on [18.5, 24.9),
    Overweight exactly on [25, 29.9), and Obese exactly on [24.9, 25), from
    29.9 on, and when it is NaN. *)
Theorem classify_characterisation (b : float) :
  (classify b = Underweight <-> (b <? 18.5) = true)
  /\ (classify b = Normal <-> (18.5 <=? b) = true /\ (b <? 24.9) = true)
  /\ (classify b = Overweight <-> (25 <=? b) = true /\ (b <? 29.9) = true)
  /\ (classify b = Obese
      <-> in_gap b \/ (29.9 <=? b) = true \/ is_nan b = true).
Proof.
  destruct (classify_cases b) as (Fu & Fn & Fo & Fg & Fb & Fnan).
  destruct (classify_inv b) as (Iu & In & Io & Ib).
  unfold in_gap in *.
  repeat split; try assumption; try tauto.
Qed.

(** X4. Away from the gap the category never goes down when the BMI goes
    up; out of the gap it does: every value of [24.9, 25) is Obese while
    every larger value below 29.9 is only Overweight. *)
Theorem classify_monotone_outside_gap (b1 b2 : float) :
  (b1 <=? b2) = true ->
  (~ in_gap b1 -> (rank (classify b1) <= rank (classify b2))%nat)
  /\ (in_gap b1 -> (25 <=? b2) = true -> (b2 <? 29.9) = true ->
      (rank (classify b2) < rank (classify b1))%nat).
Proof.
  intros Hle.
  pose proof (fcmp_smaller b1 b2 18.5 Hle eq_refl) as S1.
  pose proof (fcmp_smaller b1 b2 24.9 Hle eq_refl) as S2.
  pose proof (fcmp_smaller b1 b2 25 Hle eq_refl) as S3.
  pose proof (fcmp_smaller b1 b2 29.9 Hle eq_refl) as S4.
  clear Hle. unfold classify, in_gap.
  positions b1; positions b2;
    (split; [intros Hgap | intros Hgap Hlo Hhi]);
    try discriminate; try (simpl; lia);
    try (exfalso; apply Hgap; split; reflexivity);
    destruct Hgap; discriminate.
Qed.

Lemma classify_monotone_outside_gap_at_22_27 :
  (22 <=? 27) = true /\ ~ in_gap 22
  /\ (rank (classify 22) <= rank (classify 27))%nat.
Proof.
  assert (H1 : (22 <=? 27) = true) by reflexivity.
  assert (H2 : ~ in_gap 22) by (intros [H _]; discriminate H).
  split; [exact H1 | split; [exact H2 |]].
  apply (classify_monotone_outside_gap 22 27 H1). exact H2.
Defined.

(** ** Daily calories and water *)

(** X5. Only the exact string "Male" selects the male constant: with any
    other gender string the calorie handler does, on every input, exactly
    what it does for "Female". *)
Theorem only_exact_Male_gets_male_constant
    (age : Z) (w h : float) (g level : string) (st : session_state) :
  g <> "Male" ->
  bmr_of age w h g = bmr_of age w h "Female"
  /\ exec (calorie_req_button age w h g level) st
     = exec (calorie_req_button age w h "Female" level) st.
Proof.
  intros Hg. apply String.eqb_neq in Hg.
  assert (E : bmr_of age w h g = bmr_of age w h "Female").
  { unfold bmr_of. now rewrite Hg. }
  split; [exact E |].
  unfold exec, calorie_req_button. now rewrite E.
Qed.

Lemma only_exact_Male_lowercase :
  "male" <> "Male"
  /\ exec (calorie_req_button 25 70 1.75 "male" Sedentary) ∅
     = exec (calorie_req_button 25 70 1.75 "Female" Sedentary) ∅.
Proof.
  assert (H : "male" <> "Male") by discriminate.
  split; [exact H |].
  apply (only_exact_Male_gets_male_constant 25 70 1.75 "male" Sedentary ∅ H).
Defined.

Lemma known_label_dec (l : string) : {known_label l} + {~ known_label l}.
Proof.
  unfold known_label.
  destruct (decide (l = Sedentary)); [left; tauto |].
  destruct (decide (l = Lightly_active)); [left; tauto |].
  destruct (decide (l = Moderately_active)); [left; tauto |].
  destruct (decide (l = Very_active)); [left; tauto |].
  right. tauto.
Qed.

Lemma known_label_of (l : string) :
  known_label l <-> exists a, l = label_of a.
Proof.
  split.
  - intros [-> | [-> | [-> | ->]]];
      [exists SedentaryLevel | exists LightlyActive
      | exists ModeratelyActive | exists VeryActive]; reflexivity.
  - intros [a ->]. unfold known_label. destruct a; simpl; tauto.
Qed.

(** X8. The two multiplier tables have the same keys, the four labels of the
    select boxes: a label is found in the calorie table exactly when it is
    found in the water table, so no label works in one tab and raises in
    the other. *)
Theorem multiplier_tables_share_their_keys (l : string) :
  (is_Some (activity_multipliers !! l) <-> known_label l)
  /\ (is_Some (activity_multiplier !! l) <-> known_label l)
  /\ (subscript activity_multipliers l = Raise (KeyError l)
      <-> subscript activity_multiplier l = Raise (KeyError l))
  /\ dom activity_multipliers = dom activity_multiplier.
Proof.
  assert (Hc : forall k, is_Some (activity_multipliers !! k) <-> known_label k).
  { intros k. split.
    - intros Hs. destruct (known_label_dec k) as [Hk | Hk]; [exact Hk |].
      unfold activity_multipliers in Hs.
      rewrite unknown_label_absent in Hs by exact Hk.
      now destruct Hs.
    - intros Hk. apply known_label_of in Hk as [a ->].
      rewrite calorie_table_lookup. eauto. }
  assert (Hw : forall k, is_Some (activity_multiplier !! k) <-> known_label k).
  { intros k. split.
    - intros Hs. destruct (known_label_dec k) as [Hk | Hk]; [exact Hk |].
      unfold activity_multiplier in Hs.
      rewrite unknown_label_absent in Hs by exact Hk.
      now destruct Hs.
    - intros Hk. apply known_label_of in Hk as [a ->].
      rewrite water_table_lookup. eauto. }
  split; [apply Hc | split; [apply Hw | split]].
  - unfold subscript.
    destruct (activity_multipliers !! l) eqn:E1,
      (activity_multiplier !! l) eqn:E2; split; intros H;
      try discriminate H; try reflexivity; exfalso.
    + assert (K : known_label l) by (apply Hc; rewrite E1; eauto).
      apply Hw in K. rewrite E2 in K. now destruct K.
    + assert (K : known_label l) by (apply Hw; rewrite E2; eauto).
      apply Hc in K. rewrite E1 in K. now destruct K.
  - apply set_eq. intros k. rewrite !elem_of_dom, Hc, Hw. reflexivity.
Qed.

(** X11. The three calculators never write to the session state: whatever
    the inputs (valid or not, label known or not, exception or not) the
    state after the handler is the state before. *)
Theorem calculators_leave_session_alone
    (pow_2 : float -> result float)
    (age : Z) (w h : float) (g level : string) (st : session_state) :
  session (exec (bmi_button pow_2 w h) st).2 = st
  /\ session (exec (calorie_req_button age w h g level) st).2 = st
  /\ session (exec (water_button w level) st).2 = st.
Proof.
  split; [| split].
  - unfold exec, bmi_button, lift, mbind, M_bind.
    destruct (0 <? h); [| reflexivity].
    destruct (bmi_of pow_2 w h); reflexivity.
  - unfold exec, calorie_req_button, subscript, mbind, M_bind, lift.
    destruct ((0 <? age)%Z && (0 <? w) && (0 <? h)); [| reflexivity].
    destruct (bmr_of age w h g); [| reflexivity].
    destruct (activity_multipliers !! level); reflexivity.
  - unfold exec, water_button, subscript, mbind, M_bind, lift.
    destruct (activity_multiplier !! level) as [m |]; [| reflexivity].
    destruct (float_of_int m) as [f |]; [| reflexivity].
    destruct (float_div (w * f) 1000); reflexivity.
Qed.

(** ** Tab 1: what the analysis handler asks, logs and never does *)

Lemma calorie_button_no_upload
    (gc : string -> image_part -> result string) (t : string)
    (st : session_state) :
  exec (calorie_button gc None t) st
  = (Ok tt, World st [st_error (Lit "Please upload an image to analyze.")]).
Proof. reflexivity. Qed.

Lemma calorie_button_failure
    (gc : string -> image_part -> result string)
    (f : uploaded_file) (t : string) (e : exn) (st : session_state) :
  gc (full_prompt_of t) (part_of f) = Raise e ->
  exec (calorie_button gc (Some f) t) st
  = (Ok tt, World st [st_error (Caught "Error: " e)]).
Proof.
  intros Hgc.
  unfold exec, calorie_button, try_except, get_gemini_response,
    input_image_setup, mbind, M_bind, lift, render.
  fold (part_of f). rewrite Hgc. reflexivity.
Qed.

(** The session state a press leaves: the log extended by what the press
    logs, everything else as before. *)
Lemma calorie_button_session
    (gc : string -> image_part -> result string)
    (up : option uploaded_file) (t : string) (st : session_state) :
  let st' := session (exec (calorie_button gc up t) st).2 in
  (exec (calorie_button gc up t) st).1 = Ok tt
  /\ readAll st' = readAll st ++ logged_by (Press up t gc)
  /\ (forall k, k <> "meal_logs" -> st' !! k = st !! k)
  /\ (logged_by (Press up t gc) = [] -> st' = st).
Proof.
  unfold logged_by. cbn [upload typed service].
  destruct up as [f |].
  - destruct (gc (full_prompt_of t) (part_of f)) as [a | e] eqn:Hgc.
    + rewrite (calorie_button_success gc f t a st Hgc). cbn [fst snd session].
      split; [reflexivity |]. split; [apply readAll_insert |].
      split; [| discriminate].
      intros k Hk. now rewrite lookup_insert_ne.
    + rewrite (calorie_button_failure gc f t e st Hgc). cbn [fst snd session].
      rewrite app_nil_r. repeat split; reflexivity.
  - rewrite calorie_button_no_upload. cbn [fst snd session].
    rewrite app_nil_r. repeat split; reflexivity.
Qed.

(** X12. The analysis handler never lets an exception escape, and it writes
    to the session state only when a file was uploaded and the model
    answered: then the log gains that one record; in every other case the
    state is exactly as before. Keys other than "meal_logs" are never
    touched. *)
Theorem calorie_button_outcomes
    (gc : string -> image_part -> result string)
    (up : option uploaded_file) (t : string) (st : session_state) :
  let run := exec (calorie_button gc up t) st in
  run.1 = Ok tt
  /\ (forall k, k <> "meal_logs" -> session run.2 !! k = st !! k)
  /\ ((exists f answer,
         up = Some f
         /\ gc (full_prompt_of t) (part_of f) = Ok answer
         /\ readAll (session run.2) = readAll st ++ [record_of t answer]
         /\ rendered run.2
            = [st_success (Lit "Analysis Complete!"); st_write answer])
      \/ (session run.2 = st
          /\ exists message, rendered run.2 = [st_error message])).
Proof.
  cbv zeta.
  destruct (calorie_button_session gc up t st) as (Hok & _ & Hkeys & _).
  split; [exact Hok | split; [exact Hkeys |]].
  destruct up as [f |].
  - destruct (gc (full_prompt_of t) (part_of f)) as [a | e] eqn:Hgc.
    + left. exists f, a.
      rewrite (calorie_button_success gc f t a st Hgc). cbn [snd session rendered].
      rewrite readAll_insert.
      split; [reflexivity | split; [exact Hgc | split; reflexivity]].
    + right. rewrite (calorie_button_failure gc f t e st Hgc).
      split; [reflexivity | eexists; reflexivity].
  - right. rewrite calorie_button_no_upload.
    split; [reflexivity | eexists; reflexivity].
Qed.

(** X13. The model is asked once, about the composed prompt and the single
    part holding the upload's MIME type and bytes unchanged: two models that
    agree on that one request make the handler behave the same, and
    [image[0]] raises [IndexError] only on an empty list, which
    [input_image_setup] never builds. *)
Theorem model_is_asked_about_the_upload
    (gc gc' : string -> image_part -> result string)
    (f : uploaded_file) (t : string) (st : session_state) :
  gc (full_prompt_of t) (ImagePart (file_type f) (file_value f))
  = gc' (full_prompt_of t) (ImagePart (file_type f) (file_value f)) ->
  exec (calorie_button gc (Some f) t) st
  = exec (calorie_button gc' (Some f) t) st
  /\ get_gemini_response gc (input_image_setup f) (full_prompt_of t)
     = gc (full_prompt_of t) (ImagePart (file_type f) (file_value f))
  /\ input_image_setup f <> []
  /\ (forall prompt, get_gemini_response gc [] prompt = Raise IndexError).
Proof.
  intros Hsame. fold (part_of f) in Hsame.
  split; [| split; [reflexivity | split; [discriminate | reflexivity]]].
  destruct (gc (full_prompt_of t) (part_of f)) as [a | e] eqn:Hgc.
  - rewrite (calorie_button_success gc f t a st Hgc).
    now rewrite (calorie_button_success gc' f t a st).
  - rewrite (calorie_button_failure gc f t e st Hgc).
    now rewrite (calorie_button_failure gc' f t e st).
Qed.

Lemma model_is_asked_about_the_upload_png :
  let f := UploadedFile "image/png" [] in
  let gc := fun (_ : string) (_ : image_part) => Ok "one apple" in
  let gc' := fun (_ : string) (i : image_part) =>
               if String.eqb (mime_type i) "image/png"
               then Ok "one apple" else Raise IndexError in
  gc (full_prompt_of "snack") (ImagePart (file_type f) (file_value f))
  = gc' (full_prompt_of "snack") (ImagePart (file_type f) (file_value f))
  /\ exec (calorie_button gc (Some f) "snack") ∅
     = exec (calorie_button gc' (Some f) "snack") ∅.
Proof.
  intros f gc gc'. split; [reflexivity |].
  apply (model_is_asked_about_the_upload gc gc' f "snack" ∅ eq_refl).
Defined.

Lemma append_empty_r (s : string) : s +:+ "" = s.
Proof.
  induction s as [| c s IH]; [reflexivity |].
  change (String c (s +:+ "") = String c s). now rewrite IH.
Qed.

(** X14. The prompt sent to the model always starts with the fixed
    instructions; it is the bare instructions exactly when the text area is
    empty, and different texts give different prompts. *)
Theorem full_prompt_keeps_instructions_and_text (t : string) :
  (exists suffix, full_prompt_of t = input_prompt +:+ suffix)
  /\ (full_prompt_of t = input_prompt <-> t = "")
  /\ (t <> "" ->
      full_prompt_of t
      = input_prompt +:+ newline +:+ newline +:+ "Additional Input: " +:+ t)
  /\ (forall t', full_prompt_of t = full_prompt_of t' -> t = t').
Proof.
  assert (Hne : forall u, u <> "" ->
            full_prompt_of u
            = input_prompt +:+ newline +:+ newline
              +:+ "Additional Input: " +:+ u).
  { intros u Hu. unfold full_prompt_of. destruct u; [congruence | reflexivity]. }
  assert (Hbare : forall u, u <> "" -> full_prompt_of u <> input_prompt).
  { intros u Hu E. rewrite (Hne u Hu) in E.
    rewrite <- (append_empty_r input_prompt) in E at 2.
    apply (inj (String.append input_prompt)) in E. discriminate E. }
  split; [| split; [| split]].
  - destruct (decide (t = "")) as [-> | Ht].
    + exists "". symmetry. apply append_empty_r.
    + eexists. apply (Hne t Ht).
  - split; [| now intros ->].
    intros E. destruct (decide (t = "")) as [-> | Ht]; [reflexivity |].
    now destruct (Hbare t Ht).
  - apply Hne.
  - intros t' E.
    destruct (decide (t = "")) as [-> | Ht], (decide (t' = "")) as [-> | Ht'].
    + reflexivity.
    + symmetry in E. now destruct (Hbare t' Ht').
    + now destruct (Hbare t Ht).
    + rewrite (Hne t Ht), (Hne t' Ht') in E.
      apply (inj (String.append input_prompt)) in E.
      apply (inj (String.append newline)) in E.
      apply (inj (String.append newline)) in E.
      now apply (inj (String.append "Additional Input: ")) in E.
Qed.

Lemma full_prompt_keeps_text_lunch :
  "lunch" <> ""
  /\ full_prompt_of "lunch"
     = input_prompt +:+ newline +:+ newline +:+ "Additional Input: " +:+ "lunch".
Proof.
  assert (H : "lunch" <> "") by discriminate.
  split; [exact H |].
  destruct (full_prompt_keeps_instructions_and_text "lunch") as (_ & _ & T & _).
  exact (T H).
Defined.

(** X15. Logging a meal never raises, whether or not the log exists yet: it
    leaves the page and every other key alone, makes the log one record
    longer, keeps every earlier record at its index and puts the new record
    last. *)
Theorem log_meal_only_extends_the_log
    (t a : string) (st : session_state) (out : list ui_event) :
  exists st',
    log_meal t a (World st out) = (Ok tt, World st' out)
    /\ (forall k, k <> "meal_logs" -> st' !! k = st !! k)
    /\ length (readAll st') = S (length (readAll st))
    /\ (forall i r, readAll st !! i = Some r -> readAll st' !! i = Some r)
    /\ last (readAll st') = Some (record_of t a)
    /\ is_Some (st' !! "meal_logs").
Proof.
  eexists. split; [apply log_meal_appends |].
  rewrite readAll_insert.
  split; [intros k Hk; now rewrite lookup_insert_ne |].
  split; [rewrite length_app; simpl; lia |].
  split; [intros i r Hi; now apply lookup_app_l_Some |].
  split; [apply last_snoc |].
  rewrite lookup_insert_eq. eauto.
Qed.

(** The log after a series of presses. *)
Lemma session_after_log (presses : list press) (st : session_state) :
  readAll (session_after presses st)
  = readAll st ++ flat_map logged_by presses
  /\ (forall k, k <> "meal_logs" -> session_after presses st !! k = st !! k).
Proof.
  revert st. induction presses as [| p rest IH]; intros st.
  - simpl. now rewrite app_nil_r.
  - cbn [session_after flat_map].
    destruct (calorie_button_session (service p) (upload p) (typed p) st)
      as (_ & Hlog & Hkeys & _).
    destruct (IH (session
                    (exec (calorie_button (service p) (upload p) (typed p)) st).2))
      as [IHlog IHkeys].
    split.
    + rewrite IHlog, Hlog. destruct p. now rewrite <- app_assoc.
    + intros k Hk. rewrite IHkeys by exact Hk. now apply Hkeys.
Qed.

Lemma record_of_named (t a : string) : meal_name (record_of t a) <> "".
Proof.
  unfold record_of. cbn [meal_name].
  destruct (decide (t = "")); [discriminate | assumption].
Qed.

Lemma logged_by_named (p : press) :
  Forall (fun r => meal_name r <> "") (logged_by p).
Proof.
  unfold logged_by. destruct (upload p); [| constructor].
  destruct (service p _ _); constructor; [apply record_of_named | constructor].
Qed.

Lemma logged_count_le (presses : list press) :
  (length (flat_map logged_by presses) <= length presses)%nat.
Proof.
  induction presses as [| p rest IH]; [simpl; lia |].
  cbn [flat_map]. rewrite length_app. cbn [length].
  assert (length (logged_by p) <= 1)%nat; [| lia].
  unfold logged_by. destruct (upload p); [| simpl; lia].
  destruct (service p _ _); simpl; lia.
Qed.

(** X16. After any series of presses of "Analyze Image" the log is the log
    before followed by one record for each press that had a file and got an
    answer, in the order of the presses; presses without a file or with a
    failing model add nothing, and no other key of the session state
    changes. *)
Theorem log_after_presses (presses : list press) (st : session_state) :
  readAll (session_after presses st)
  = readAll st ++ flat_map logged_by presses
  /\ (length (readAll st) <= length (readAll (session_after presses st))
      <= length (readAll st) + length presses)%nat
  /\ (forall k, k <> "meal_logs" -> session_after presses st !! k = st !! k)
  /\ (forall i r,
        readAll st !! i = Some r ->
        readAll (session_after presses st) !! i = Some r).
Proof.
  destruct (session_after_log presses st) as [Hlog Hkeys].
  split; [exact Hlog | split; [| split; [exact Hkeys |]]].
  - rewrite Hlog, length_app.
    pose proof (logged_count_le presses). lia.
  - intros i r Hi. rewrite Hlog. now apply lookup_app_l_Some.
Qed.

(** X17. No logged meal is nameless: if every record of the log has a
    non-empty name, so has every record after any series of presses; in a
    session that starts without a log every record ever logged is named. *)
Theorem logged_meals_are_named (presses : list press) (st : session_state) :
  Forall (fun r => meal_name r <> "") (readAll st) ->
  Forall (fun r => meal_name r <> "") (readAll (session_after presses st))
  /\ Forall (fun r => meal_name r <> "") (readAll (session_after presses ∅)).
Proof.
  intros Hst.
  assert (Hnew : Forall (fun r => meal_name r <> "")
                   (flat_map logged_by presses)).
  { induction presses as [| p rest IH]; [constructor |].
    cbn [flat_map]. apply Forall_app. split; [apply logged_by_named | exact IH]. }
  destruct (session_after_log presses st) as [-> _].
  destruct (session_after_log presses ∅) as [-> _].
  split; apply Forall_app; split; try assumption. constructor.
Qed.

Lemma logged_meals_are_named_two_presses :
  let f := UploadedFile "image/png" [] in
  let answers := fun (_ : string) (_ : image_part) => Ok "about 300 kcal" in
  let presses := [Press (Some f) "" answers; Press None "tea" answers] in
  Forall (fun r => meal_name r <> "") (readAll ∅)
  /\ Forall (fun r => meal_name r <> "") (readAll (session_after presses ∅)).
Proof.
  intros f answers presses.
  assert (H : Forall (fun r => meal_name r <> "") (readAll ∅)) by constructor.
  split; [exact H |].
  apply (logged_meals_are_named presses ∅ H).
Defined.
